(** * Glowy API: validation and CRUD contract of the product entity

    A shallow embedding of [app/main.py]: the five pydantic field validators
    of [ProductoBase], the construction of the models [ProductoCreate],
    [ProductoUpdate] and [Producto], and the five FastAPI endpoints over the
    product table.

    Data.  A Python [str] is a [string] whose characters are read as the code
    points U+0000..U+00FF; [str.strip] sees the white space of that range
    and [str.title] maps the case of the ASCII letters.  A Python [float] is
    a primitive binary64 [float]; a Python [int] is a [Z].  [None] is
    [None].  An exception is the [Raise] branch of [result]. *)

From Stdlib Require Import ZArith String Ascii List Lia Bool Sorted.
From Stdlib Require Import PrimFloat FloatOps SpecFloat FloatAxioms.
From stdpp Require Import base option list gmap strings.
Set Warnings "-inexact-float".

Local Open Scope string_scope.
Local Open Scope Z_scope.

(** ** Results of code that may raise *)

Inductive result (E A : Type) : Type :=
| Ok (a : A)
| Raise (e : E).
Arguments Ok {E A} a.
Arguments Raise {E A} e.

Definition raises {E A} (r : result E A) : Prop :=
  match r with Raise _ => True | Ok _ => False end.

Definition error_of {E A} (r : result E A) : option E :=
  match r with Raise e => Some e | Ok _ => None end.

(** ** Python text operations *)

Module Str.

Definition code (c : ascii) : N := N_of_ascii c.

(** [str.isspace] on one character of the range U+0000..U+00FF. *)
Definition isspace (c : ascii) : bool :=
  let n := code c in
  ((9 <=? n) && (n <=? 13) || (28 <=? n) && (n <=? 32)
   || (n =? 133) || (n =? 160))%N.

Definition isupper (c : ascii) : bool := ((65 <=? code c) && (code c <=? 90))%N.
Definition islower (c : ascii) : bool := ((97 <=? code c) && (code c <=? 122))%N.
Definition iscased (c : ascii) : bool := isupper c || islower c.

Definition tolower (c : ascii) : ascii :=
  if isupper c then ascii_of_N (code c + 32) else c.
Definition toupper (c : ascii) : ascii :=
  if islower c then ascii_of_N (code c - 32) else c.

Fixpoint lstrip (s : string) : string :=
  match s with
  | EmptyString => EmptyString
  | String c s' => if isspace c then lstrip s' else s
  end.

Fixpoint rstrip (s : string) : string :=
  match s with
  | EmptyString => EmptyString
  | String c s' =>
      match rstrip s' with
      | EmptyString => if isspace c then EmptyString else String c EmptyString
      | r => String c r
      end
  end.

(** [v.strip()] *)
Definition strip (s : string) : string := rstrip (lstrip s).

(** [len(v)] *)
Definition len (s : string) : Z := Z.of_nat (String.length s).

(** [v.lower()], used to say "equal up to case". *)
Fixpoint lower (s : string) : string :=
  match s with
  | EmptyString => EmptyString
  | String c s' => String (tolower c) (lower s')
  end.

(** The loop of [str.title]: a character that follows a cased character
    is lowered, any other one is title-cased; [previous_is_cased] is
    taken from the character as it was read. *)
Fixpoint title_from (previous_is_cased : bool) (s : string) : string :=
  match s with
  | EmptyString => EmptyString
  | String c s' =>
      String (if previous_is_cased then tolower c else toupper c)
             (title_from (iscased c) s')
  end.

(** [v.title()] *)
Definition title (s : string) : string := title_from false s.

(** [", ".join(l)] *)
Fixpoint join (sep : string) (l : list string) : string :=
  match l with
  | [] => EmptyString
  | [x] => x
  | x :: l' => String.append x (String.append sep (join sep l'))
  end.

(** Two texts match case-insensitively. *)
Definition eq_ignore_case (a b : string) : Prop := lower a = lower b.

End Str.

(** ** Python's [round(x, ndigits)] on a float *)

Module Round.

(** The integer nearest to [num / den], ties to the even one ([0 < den]). *)
Definition div_half_even (num den : Z) : Z :=
  let q := num / den in
  match (2 * (num mod den)) ?= den with
  | Lt => q
  | Gt => q + 1
  | Eq => if Z.even q then q else q + 1
  end.

(** [floor (log2 (n / d))] for [0 < n] and [0 < d]. *)
Definition log2_ratio (n d : Z) : Z :=
  let l := Z.log2 n - Z.log2 d in
  let ge := if 0 <=? l then d * 2 ^ l <=? n else d <=? n * 2 ^ (- l) in
  if ge then l else l - 1.

(** The binary64 number nearest to [n / d], ties to even, for [0 <= n]
    and [0 < d]: what [strtod] returns on the decimal text of [n / d]. *)
Definition nearest (n d : Z) : float :=
  if n =? 0 then 0%float
  else
    let e := Z.max (log2_ratio n d - 52) (-1074) in
    let m := if 0 <=? e then div_half_even n (d * 2 ^ e)
             else div_half_even (n * 2 ^ (- e)) d in
    if 2 ^ 1024 <=? m * 2 ^ e then infinity
    else SF2Prim (S754_finite false (Z.to_pos m) e).

(** [round(x, ndigits)] for [0 <= ndigits]: the exact value of [x] is
    rounded to [ndigits] decimals, ties to even, and the decimal is read
    back as a float.  Zeros, infinities and NaN round to themselves. *)
Definition round (x : float) (ndigits : Z) : float :=
  match Prim2SF x with
  | S754_finite s m e =>
      let p := 10 ^ ndigits in
      let n := if 0 <=? e then Zpos m * 2 ^ e * p
               else div_half_even (Zpos m * p) (2 ^ (- e)) in
      let r := nearest n p in
      if s then (- r)%float else r
  | _ => x
  end.

End Round.

(** ** The field validators of [ProductoBase] *)

(** The [ValueError] each validator raises, named by its message:
    - [NombreVacio]: 'El nombre no puede estar vacío'
    - [NombreCorto]: 'El nombre debe tener al menos 3 caracteres'
    - [NombreLargo]: 'El nombre no puede exceder 150 caracteres'
    - [CategoriaVacia]: 'La categoría no puede estar vacía'
    - [CategoriaNoValida msg]: the f-string 'Categoría no válida. Debe ser
      una de: ...', of which [msg] is the joined list
    - [PrecioNoPositivo]: 'El precio debe ser mayor a 0'
    - [PrecioExcesivo]: 'El precio no puede exceder 999.99€'
    - [StockNegativo]: 'El stock no puede ser negativo'
    - [StockExcesivo]: 'El stock no puede exceder 9999 unidades'
    - [DescripcionLarga]: 'La descripción no puede exceder 500 caracteres' *)
Inductive ValueError : Type :=
| NombreVacio
| NombreCorto
| NombreLargo
| CategoriaVacia
| CategoriaNoValida (msg : string)
| PrecioNoPositivo
| PrecioExcesivo
| StockNegativo
| StockExcesivo
| DescripcionLarga.

(** Python's truth value of a [str]: [not v] holds of the empty text only. *)
Definition falsy (v : string) : bool :=
  match v with EmptyString => true | String _ _ => false end.

Definition validar_nombre (v : string) : result ValueError string :=
  if falsy v || falsy (Str.strip v) then Raise NombreVacio
  else
    let v := Str.strip v in
    if Str.len v <? 3 then Raise NombreCorto
    else if 150 <? Str.len v then Raise NombreLargo
    else Ok v.

Definition categorias_validas : list string :=
  [ "Serum"; "Cleanser"; "Moisturizer";
    "Toner"; "Sunscreen"; "Mask"; "Exfoliator";
    "Eye Cream"; "Ampoule"; "Essence" ].

Definition validar_categoria (v : string) : result ValueError string :=
  if falsy v || falsy (Str.strip v) then Raise CategoriaVacia
  else
    let v := Str.strip v in
    if decide (Str.title v ∈ categorias_validas)
    then Ok (Str.title v)
    else Raise (CategoriaNoValida (Str.join ", " categorias_validas)).

Definition validar_precio (v : float) : result ValueError float :=
  if (v <=? 0)%float then Raise PrecioNoPositivo
  else if (999.99 <? v)%float then Raise PrecioExcesivo
  else Ok (Round.round v 2).

Definition validar_stock (v : Z) : result ValueError Z :=
  if v <? 0 then Raise StockNegativo
  else if 9999 <? v then Raise StockExcesivo
  else Ok v.

Definition validar_descripcion (v : option string)
  : result ValueError (option string) :=
  match v with
  | None => Ok None
  | Some t =>
      if falsy (Str.strip t) then Ok None
      else
        let t := Str.strip t in
        if 500 <? Str.len t then Raise DescripcionLarga
        else Ok (Some t)
  end.

(** ** The pydantic models *)

(** The five fields of [ProductoBase]: the keyword arguments a model is
    built from and, once validated, the attributes of the instance. *)
Record ProductoBase : Type := mkProductoBase {
  nombre : string;
  categoria : string;
  precio : float;
  stock : Z;
  descripcion : option string
}.

(** [ProductoCreate] and [ProductoUpdate] add nothing to [ProductoBase]. *)
Definition ProductoCreate : Type := ProductoBase.
Definition ProductoUpdate : Type := ProductoBase.

(** [Producto] adds the [id]; a row of the table has the same shape. *)
Record Producto : Type := mkProducto {
  id : Z;
  campos : ProductoBase
}.

Inductive Field : Type := Fnombre | Fcategoria | Fprecio | Fstock | Fdescripcion.

(** pydantic's [ValidationError]: one entry per field whose validator
    raised, in the order the fields are declared. *)
Definition ValidationError : Type := list (Field * ValueError).

Definition line_error {A} (loc : Field) (r : result ValueError A)
  : ValidationError :=
  match r with
  | Raise e => [(loc, e)]
  | Ok _ => []
  end.

(** Building a [ProductoBase] (or a subclass) from keyword arguments: every
    field validator runs, and the errors of all of them are raised
    together. *)
Definition ProductoBase_init (kw : ProductoBase)
  : result ValidationError ProductoBase :=
  let rn := validar_nombre (nombre kw) in
  let rc := validar_categoria (categoria kw) in
  let rp := validar_precio (precio kw) in
  let rs := validar_stock (stock kw) in
  let rd := validar_descripcion (descripcion kw) in
  match rn, rc, rp, rs, rd with
  | Ok n, Ok c, Ok p, Ok s, Ok d => Ok (mkProductoBase n c p s d)
  | _, _, _, _, _ =>
      Raise (line_error Fnombre rn ++ line_error Fcategoria rc
             ++ line_error Fprecio rp ++ line_error Fstock rs
             ++ line_error Fdescripcion rd)%list
  end.

(** [Producto(id=..., nombre=..., ...)], also when the keyword arguments
    are unpacked from a row of the table. *)
Definition Producto_init (kw : Producto) : result ValidationError Producto :=
  match ProductoBase_init (campos kw) with
  | Ok b => Ok (mkProducto (id kw) b)
  | Raise e => Raise e
  end.

(** The error, if any, that the validator of field [f] raises on [kw]. *)
Definition field_error (f : Field) (kw : ProductoBase) : option ValueError :=
  match f with
  | Fnombre => error_of (validar_nombre (nombre kw))
  | Fcategoria => error_of (validar_categoria (categoria kw))
  | Fprecio => error_of (validar_precio (precio kw))
  | Fstock => error_of (validar_stock (stock kw))
  | Fdescripcion => error_of (validar_descripcion (descripcion kw))
  end.

(** A value satisfies every field constraint when each validator accepts
    it. *)
Definition satisfies_constraints (p : ProductoBase) : Prop :=
  forall f, field_error f p = None.

(** ** The product table *)

(** Modelled from the spec: the table behind [app.database], whose module is
    not part of the sources at hand.  The table maps each id in use to the
    five stored fields and remembers the next id to hand out, so that an id
    is never given twice ("assigns and returns a fresh unique id ... no id
    reuse"). *)
Record Store : Type := mkStore {
  rows : gmap Z ProductoBase;
  next_id : Z
}.

Definition empty_store : Store := mkStore ∅ 1.

(** Modelled from the spec: [list()] "returns all rows, each mapped to a
    Product; order is unspecified"; here the order in which the map
    enumerates its entries. *)
Definition fetch_all_productos (s : Store) : list Producto :=
  (fun ir => mkProducto (fst ir) (snd ir)) <$> map_to_list (rows s).

(** Modelled from the spec: [getById(id)] "returns the Product with
    matching id, or an explicit not-found signal". *)
Definition fetch_producto_by_id (s : Store) (producto_id : Z)
  : option Producto :=
  mkProducto producto_id <$> rows s !! producto_id.

(** Modelled from the spec: [insert(validatedFields)] "persists a new row,
    assigns and returns a fresh unique id". *)
Definition insert_producto (s : Store) (nombre categoria : string)
  (precio : float) (stock : Z) (descripcion : option string) : Store * Z :=
  (mkStore (<[next_id s := mkProductoBase nombre categoria precio stock
                                          descripcion]> (rows s))
           (next_id s + 1),
   next_id s).

(** Modelled from the spec: [update(id, validatedFields)] "if a row with id
    exists, overwrites its mutable fields entirely and returns success; if
    no row exists, returns a not-found signal and performs no write". *)
Definition update_producto (s : Store) (producto_id : Z)
  (nombre categoria : string) (precio : float) (stock : Z)
  (descripcion : option string) : Store * bool :=
  match rows s !! producto_id with
  | Some _ =>
      (mkStore (<[producto_id := mkProductoBase nombre categoria precio stock
                                                descripcion]> (rows s))
               (next_id s),
       true)
  | None => (s, false)
  end.

(** Modelled from the spec: [delete(id)] "if a row with id exists, removes
    it and returns success; if not, returns a not-found signal and performs
    no write". *)
Definition delete_producto (s : Store) (producto_id : Z) : Store * bool :=
  match rows s !! producto_id with
  | Some _ => (mkStore (delete producto_id (rows s)) (next_id s), true)
  | None => (s, false)
  end.

(** ** The endpoints *)

(** What an endpoint runs in: the table, and the calls made to the
    persistence functions so far (latest first). *)
Inductive DbCall : Type :=
| CallFetchAll
| CallFetchById (producto_id : Z)
| CallInsert (fields : ProductoBase)
| CallUpdate (producto_id : Z) (fields : ProductoBase)
| CallDelete (producto_id : Z).

Record World : Type := mkWorld {
  db : Store;
  calls : list DbCall
}.

Definition call (c : DbCall) (s : Store) (w : World) : World :=
  mkWorld s (c :: calls w).

(** What the body of an endpoint may raise. *)
Inductive Exn : Type :=
| HTTPException (status_code : Z) (detail : string)
| PydanticError (errors : ValidationError).

Inductive Body : Type :=
| JsonProducto (p : Producto)
| JsonProductos (l : list Producto)
| JsonDetail (detail : string)
| JsonErrors (errors : ValidationError)
| NoBody
| InternalServerError.

Record Response : Type := mkResponse {
  status : Z;
  body : Body
}.

(** The list comprehension over the fetched rows: the first row whose
    construction raises ends the comprehension. *)
Fixpoint Producto_init_all (l : list Producto)
  : result ValidationError (list Producto) :=
  match l with
  | [] => Ok []
  | row :: l' =>
      match Producto_init row with
      | Raise e => Raise e
      | Ok p =>
          match Producto_init_all l' with
          | Raise e => Raise e
          | Ok ps => Ok (p :: ps)
          end
      end
  end.

Definition listar_productos (w : World)
  : World * result Exn (list Producto) :=
  let rows := fetch_all_productos (db w) in
  let w := call CallFetchAll (db w) w in
  match Producto_init_all rows with
  | Ok ps => (w, Ok ps)
  | Raise e => (w, Raise (PydanticError e))
  end.

Definition obtener_producto (producto_id : Z) (w : World)
  : World * result Exn Producto :=
  let producto := fetch_producto_by_id (db w) producto_id in
  let w := call (CallFetchById producto_id) (db w) w in
  match producto with
  | None => (w, Raise (HTTPException 404 "Producto no encontrado"))
  | Some row =>
      match Producto_init row with
      | Ok p => (w, Ok p)
      | Raise e => (w, Raise (PydanticError e))
      end
  end.

Definition crear_producto (producto : ProductoCreate) (w : World)
  : World * result Exn Producto :=
  let '(s, producto_id) :=
    insert_producto (db w) (nombre producto) (categoria producto)
                    (precio producto) (stock producto) (descripcion producto) in
  let w := call (CallInsert producto) s w in
  match Producto_init
          (mkProducto producto_id
             (mkProductoBase (nombre producto) (categoria producto)
                (precio producto) (stock producto) (descripcion producto)))
  with
  | Ok p => (w, Ok p)
  | Raise e => (w, Raise (PydanticError e))
  end.

Definition actualizar_producto (producto_id : Z) (producto : ProductoUpdate)
  (w : World) : World * result Exn Producto :=
  let '(s, actualizado) :=
    update_producto (db w) producto_id (nombre producto) (categoria producto)
                    (precio producto) (stock producto) (descripcion producto) in
  let w := call (CallUpdate producto_id producto) s w in
  if negb actualizado
  then (w, Raise (HTTPException 404 "Producto no encontrado"))
  else
    match Producto_init
            (mkProducto producto_id
               (mkProductoBase (nombre producto) (categoria producto)
                  (precio producto) (stock producto) (descripcion producto)))
    with
    | Ok p => (w, Ok p)
    | Raise e => (w, Raise (PydanticError e))
    end.

Definition eliminar_producto (producto_id : Z) (w : World)
  : World * result Exn unit :=
  let '(s, eliminado) := delete_producto (db w) producto_id in
  let w := call (CallDelete producto_id) s w in
  if negb eliminado
  then (w, Raise (HTTPException 404 "Producto no encontrado"))
  else (w, Ok tt).

(** ** The routes *)

(** How the framework answers: the returned value under the status of the
    route, an [HTTPException] under its own status, and any other exception
    that leaves the body as a server error. *)
Definition respond {A} (ok : Z) (to_body : A -> Body) (r : result Exn A)
  : Response :=
  match r with
  | Ok a => mkResponse ok (to_body a)
  | Raise (HTTPException code detail) => mkResponse code (JsonDetail detail)
  | Raise (PydanticError _) => mkResponse 500 InternalServerError
  end.

Definition GET_productos (w : World) : World * Response :=
  let '(w, r) := listar_productos w in (w, respond 200 JsonProductos r).

Definition GET_producto (producto_id : Z) (w : World) : World * Response :=
  let '(w, r) := obtener_producto producto_id w in
  (w, respond 200 JsonProducto r).

(** The request body is built into the model before the endpoint is
    entered; a body that does not validate is answered with 422 and the
    errors. *)
Definition POST_productos (payload : ProductoBase) (w : World)
  : World * Response :=
  match ProductoBase_init payload with
  | Raise e => (w, mkResponse 422 (JsonErrors e))
  | Ok producto =>
      let '(w, r) := crear_producto producto w in
      (w, respond 201 JsonProducto r)
  end.

Definition PUT_producto (producto_id : Z) (payload : ProductoBase) (w : World)
  : World * Response :=
  match ProductoBase_init payload with
  | Raise e => (w, mkResponse 422 (JsonErrors e))
  | Ok producto =>
      let '(w, r) := actualizar_producto producto_id producto w in
      (w, respond 200 JsonProducto r)
  end.

Definition DELETE_producto (producto_id : Z) (w : World) : World * Response :=
  let '(w, r) := eliminar_producto producto_id w in
  (w, respond 204 (fun _ => NoBody) r).

Definition empty_world : World := mkWorld empty_store [].

(** ** Sequences of persistence calls *)

(** One persistence call run against the table, with the id it assigned
    when it is an insert. *)
Definition perform (c : DbCall) (s : Store) : Store * option Z :=
  match c with
  | CallFetchAll => (s, None)
  | CallFetchById _ => (s, None)
  | CallInsert f =>
      let '(s', i) :=
        insert_producto s (nombre f) (categoria f) (precio f) (stock f)
                        (descripcion f) in
      (s', Some i)
  | CallUpdate i f =>
      (fst (update_producto s i (nombre f) (categoria f) (precio f) (stock f)
                            (descripcion f)), None)
  | CallDelete i => (fst (delete_producto s i), None)
  end.

(** The ids assigned by the inserts of a sequence of calls, in order. *)
Fixpoint ids_assigned (s : Store) (ops : list DbCall) : list Z :=
  match ops with
  | [] => []
  | c :: ops' =>
      let '(s', r) := perform c s in
      match r with
      | Some i => i :: ids_assigned s' ops'
      | None => ids_assigned s' ops'
      end
  end.

(** Every id in use lies below the next id to hand out. *)
Definition table_ok (s : Store) : Prop :=
  forall i, is_Some (rows s !! i) -> i < next_id s.

(** ** Order of the fields *)

(** The place of a field in the declaration of [ProductoBase]. *)
Definition field_index (f : Field) : Z :=
  match f with
  | Fnombre => 0
  | Fcategoria => 1
  | Fprecio => 2
  | Fstock => 3
  | Fdescripcion => 4
  end.

(** ** Requests *)

(** The requests the product routes answer. *)
Inductive Request : Type :=
| ReqListar
| ReqObtener (producto_id : Z)
| ReqCrear (payload : ProductoBase)
| ReqActualizar (producto_id : Z) (payload : ProductoBase)
| ReqEliminar (producto_id : Z).

(** The route of a request, as the decorators of the endpoints register
    them. *)
Definition handle (req : Request) (w : World) : World * Response :=
  match req with
  | ReqListar => GET_productos w
  | ReqObtener producto_id => GET_producto producto_id w
  | ReqCrear payload => POST_productos payload w
  | ReqActualizar producto_id payload => PUT_producto producto_id payload w
  | ReqEliminar producto_id => DELETE_producto producto_id w
  end.

(** The world after a sequence of requests, answered one after the other. *)
Fixpoint run (reqs : list Request) (w : World) : World :=
  match reqs with
  | [] => w
  | req :: reqs' => run reqs' (fst (handle req w))
  end.

(** Every row of the table holds the validated form of some payload. *)
Definition rows_validated (w : World) : Prop :=
  forall i row, rows (db w) !! i = Some row ->
                exists kw, ProductoBase_init kw = Ok row.

(** ** Proof tools *)

(** Replaces the closed powers of two by their values. *)
Ltac eval_pow2 :=
  repeat match goal with
         | |- context [2 ^ ?x] =>
             let v := eval vm_compute in (2 ^ x) in change (2 ^ x) with v
         | H : context [2 ^ ?x] |- _ =>
             let v := eval vm_compute in (2 ^ x) in change (2 ^ x) with v in H
         end.

(** * Properties *)

(** ** Text *)

Section StrFacts.
Import Str.

Example strip_samples :
  strip "  Snail 92  " = "Snail 92"
  /\ strip (String "009" (String "010" "ab c  ")) = "ab c"
  /\ strip "   " = "".
Proof. repeat split; reflexivity. Qed.

Example title_samples :
  title "eye cREAM" = "Eye Cream"
  /\ title "MOISTURIZER" = "Moisturizer"
  /\ title "ab1cd" = "Ab1Cd".
Proof. repeat split; reflexivity. Qed.

Lemma tolower_idem c : tolower (tolower c) = tolower c.
Proof. destruct c as [[] [] [] [] [] [] [] []]; reflexivity. Qed.

Lemma tolower_toupper c : tolower (toupper c) = tolower c.
Proof. destruct c as [[] [] [] [] [] [] [] []]; reflexivity. Qed.

Lemma toupper_tolower c : toupper (tolower c) = toupper c.
Proof. destruct c as [[] [] [] [] [] [] [] []]; reflexivity. Qed.

Lemma iscased_tolower c : iscased (tolower c) = iscased c.
Proof. destruct c as [[] [] [] [] [] [] [] []]; reflexivity. Qed.

(** Title-casing does not see the case of its input. *)
Lemma title_from_lower b s : title_from b (lower s) = title_from b s.
Proof.
  revert b; induction s as [|c s IH]; intros b; simpl; [reflexivity|].
  rewrite iscased_tolower, IH.
  destruct b; [rewrite tolower_idem | rewrite toupper_tolower]; reflexivity.
Qed.

(** Title-casing changes nothing but the case. *)
Lemma lower_title_from b s : lower (title_from b s) = lower s.
Proof.
  revert b; induction s as [|c s IH]; intros b; simpl; [reflexivity|].
  rewrite IH.
  destruct b; [rewrite tolower_idem | rewrite tolower_toupper]; reflexivity.
Qed.

Lemma title_eq_ignore_case s t :
  eq_ignore_case s t -> title s = title t.
Proof.
  unfold eq_ignore_case, title; intros E.
  rewrite <- (title_from_lower false s), E.
  apply title_from_lower.
Qed.

Lemma title_idem s : title (title s) = title s.
Proof. apply title_eq_ignore_case, lower_title_from. Qed.

Lemma lstrip_head s :
  match lstrip s with
  | EmptyString => True
  | String c _ => isspace c = false
  end.
Proof.
  induction s as [|c s IH]; simpl; [exact I|].
  destruct (isspace c) eqn:E; [exact IH | exact E].
Qed.

Lemma rstrip_head c s :
  isspace c = false -> exists r, rstrip (String c s) = String c r.
Proof.
  intros E; simpl. destruct (rstrip s); [rewrite E|]; eauto.
Qed.

Lemma rstrip_idem s : rstrip (rstrip s) = rstrip s.
Proof.
  induction s as [|c s IH]; simpl; [reflexivity|].
  destruct (rstrip s) as [|d r] eqn:E.
  - destruct (isspace c) eqn:Ec; simpl; [reflexivity | rewrite Ec; reflexivity].
  - change (rstrip (String c (String d r))) with
      (match rstrip (String d r) with
       | EmptyString => if isspace c then EmptyString else String c EmptyString
       | x => String c x
       end).
    rewrite IH. reflexivity.
Qed.

Lemma lstrip_fixed s :
  match s with EmptyString => True | String c _ => isspace c = false end ->
  lstrip s = s.
Proof. destruct s as [|c s]; simpl; [reflexivity | intros ->; reflexivity]. Qed.

(** Stripping a stripped text changes nothing. *)
Lemma strip_idem s : strip (strip s) = strip s.
Proof.
  unfold strip.
  assert (H : lstrip (rstrip (lstrip s)) = rstrip (lstrip s)).
  { apply lstrip_fixed. pose proof (lstrip_head s) as Hh.
    destruct (lstrip s) as [|c t]; [exact I|].
    destruct (rstrip_head c t Hh) as [r ->]. exact Hh. }
  rewrite H. apply rstrip_idem.
Qed.

Lemma strip_nil : strip "" = "".
Proof. reflexivity. Qed.

Lemma falsy_true s : falsy s = true <-> s = "".
Proof. destruct s; simpl; split; congruence. Qed.

Lemma falsy_strip s : falsy s || falsy (strip s) = falsy (strip s).
Proof. destruct s; reflexivity. Qed.

End StrFacts.

(** ** Categoría *)

(** Every allowed category is written in its title-cased form and carries no
    surrounding white space. *)
Lemma categorias_validas_canonical c :
  c ∈ categorias_validas -> Str.title c = c /\ Str.strip c = c.
Proof.
  unfold categorias_validas; intros H.
  repeat (apply elem_of_cons in H as [-> | H]; [split; reflexivity|]).
  by apply elem_of_nil in H.
Qed.

(** The membership test of the validator is the case-insensitive match
    against the allowed categories, and the title-cased text is then the
    matched category itself. *)
Lemma title_in_categorias t :
  Str.title t ∈ categorias_validas <->
  exists c, c ∈ categorias_validas /\ Str.eq_ignore_case t c.
Proof.
  split.
  - intros H. exists (Str.title t). split; [exact H|].
    unfold Str.eq_ignore_case, Str.title. symmetry. apply lower_title_from.
  - intros (c & Hc & E). apply title_eq_ignore_case in E.
    destruct (categorias_validas_canonical c Hc) as [Ht _]. congruence.
Qed.

Lemma validar_categoria_unfold v :
  validar_categoria v =
  if decide (Str.title (Str.strip v) ∈ categorias_validas)
  then Ok (Str.title (Str.strip v))
  else if falsy (Str.strip v) then Raise CategoriaVacia
       else Raise (CategoriaNoValida (Str.join ", " categorias_validas)).
Proof.
  unfold validar_categoria. rewrite falsy_strip.
  destruct (falsy (Str.strip v)) eqn:E; [|reflexivity].
  apply falsy_true in E. rewrite E. reflexivity.
Qed.

(** C2: a category is rejected exactly when its trimmed text matches none of
    the ten allowed categories case-insensitively; when it matches one, the
    validated value is that category in its canonical spelling, whatever
    the case of the input. *)
Theorem validar_categoria_spec (v : string) :
  (raises (validar_categoria v) <->
   ~ exists c, c ∈ categorias_validas /\ Str.eq_ignore_case (Str.strip v) c)
  /\ (forall c, c ∈ categorias_validas ->
                Str.eq_ignore_case (Str.strip v) c ->
                validar_categoria v = Ok c).
Proof.
  rewrite validar_categoria_unfold, <- title_in_categorias.
  split.
  - destruct (decide (Str.title (Str.strip v) ∈ categorias_validas)) as [H|H].
    + simpl; tauto.
    + destruct (falsy (Str.strip v)); simpl; tauto.
  - intros c Hc E.
    assert (Hin : Str.title (Str.strip v) ∈ categorias_validas)
      by (apply title_in_categorias; eauto).
    rewrite decide_True by exact Hin.
    apply title_eq_ignore_case in E.
    destruct (categorias_validas_canonical c Hc) as [Ht _]. congruence.
Qed.

Lemma validar_categoria_spec_witness :
  validar_categoria "  eYe cReAm " = Ok "Eye Cream".
Proof.
  apply (proj2 (validar_categoria_spec "  eYe cReAm ") "Eye Cream").
  - unfold categorias_validas. repeat constructor.
  - reflexivity.
Defined.

(** ** Nombre *)

(** C5: a name is rejected exactly when its trimmed text is empty, shorter
    than 3 characters or longer than 150; an accepted name is stored
    trimmed. *)
Theorem validar_nombre_spec (v : string) :
  (raises (validar_nombre v) <->
   Str.strip v = "" \/ Str.len (Str.strip v) < 3 \/ 150 < Str.len (Str.strip v))
  /\ (forall r, validar_nombre v = Ok r -> r = Str.strip v).
Proof.
  unfold validar_nombre. rewrite falsy_strip.
  destruct (falsy (Str.strip v)) eqn:E.
  - apply falsy_true in E. simpl. split; [tauto | discriminate].
  - assert (Hne : Str.strip v <> "")
      by (intros H; apply falsy_true in H; congruence).
    destruct (Z.ltb_spec (Str.len (Str.strip v)) 3);
      [simpl; split; [tauto | discriminate]|].
    destruct (Z.ltb_spec 150 (Str.len (Str.strip v)));
      [simpl; split; [tauto | discriminate]|].
    simpl. split; [|congruence].
    split; [tauto|]. intros [?|[?|?]]; [congruence | lia | lia].
Qed.

Lemma validar_nombre_spec_witness :
  "Snail 92" = Str.strip "  Snail 92  ".
Proof.
  apply (proj2 (validar_nombre_spec "  Snail 92  ")). reflexivity.
Defined.

(** ** Descripción *)

(** C6: a description that is null, or empty or blank once trimmed, becomes
    absent, and the empty text is never the validated value; any other one
    is rejected exactly when its trimmed text is longer than 500 characters,
    and is stored trimmed when accepted. *)
Theorem validar_descripcion_spec (v : option string) :
  ((v = None \/ exists t, v = Some t /\ Str.strip t = "") ->
   validar_descripcion v = Ok None)
  /\ validar_descripcion v <> Ok (Some "")
  /\ (forall t, v = Some t -> Str.strip t <> "" ->
        (raises (validar_descripcion v) <-> 500 < Str.len (Str.strip t))
        /\ (forall r, validar_descripcion v = Ok r -> r = Some (Str.strip t))).
Proof.
  unfold validar_descripcion.
  destruct v as [t|].
  - destruct (falsy (Str.strip t)) eqn:E.
    + apply falsy_true in E. repeat split; try discriminate.
      all: intros; simplify_eq; congruence.
    + assert (Hne : Str.strip t <> "")
        by (intros H; apply falsy_true in H; congruence).
      split; [|split].
      * intros [?|(u & ? & ?)]; simplify_eq.
      * destruct (500 <? Str.len (Str.strip t)); congruence.
      * intros u ? _; simplify_eq.
        destruct (Z.ltb_spec 500 (Str.len (Str.strip u))); simpl.
        -- split; [tauto | discriminate].
        -- split; [split; [tauto | lia] | congruence].
  - repeat split; try discriminate; intros; simplify_eq.
Qed.

Lemma validar_descripcion_spec_witness :
  validar_descripcion (Some "   ") = Ok None.
Proof.
  apply (proj1 (validar_descripcion_spec (Some "   "))).
  right. exists "   ". split; reflexivity.
Defined.

(** ** Precio *)

(** The builtin on some inputs: ties go to the even hundredth, and a price
    below half a cent rounds to zero. *)
Example round_samples :
  Round.round 28.5 2 = 28.5%float
  /\ Round.round 0.125 2 = 0.12%float
  /\ Round.round 0.375 2 = 0.38%float
  /\ Round.round 2.675 2 = 2.67%float
  /\ Round.round 0.001 2 = 0%float.
Proof. vm_compute. repeat split; reflexivity. Qed.

(** C3: a price is rejected exactly when it is at most 0 or above 999.99,
    and an accepted price is stored as [round(v, 2)]. *)
Theorem validar_precio_spec (v : float) :
  (raises (validar_precio v) <->
   (v <=? 0)%float = true \/ (999.99 <? v)%float = true)
  /\ (forall r, validar_precio v = Ok r -> r = Round.round v 2).
Proof.
  unfold validar_precio.
  destruct (v <=? 0)%float; [simpl; split; [tauto | discriminate]|].
  destruct (999.99 <? v)%float; [simpl; split; [tauto | discriminate]|].
  simpl. split; [|congruence].
  split; [tauto|]. intros [?|?]; discriminate.
Qed.

Lemma validar_precio_spec_witness :
  28.5%float = Round.round 28.5 2.
Proof.
  apply (proj2 (validar_precio_spec 28.5)). vm_compute. reflexivity.
Defined.

(** A float above 999.99 is not at most 0. *)
Lemma above_bound_positive (v : float) :
  (999.99 <? v)%float = true -> (v <=? 0)%float = false.
Proof.
  rewrite FloatAxioms.ltb_spec, FloatAxioms.leb_spec.
  destruct (Prim2SF v) as [[]|[]| |[] m e]; vm_compute; try congruence.
Qed.

(** C9: the upper bound is tested on the price as received, before it is
    rounded: every price above 999.99 is rejected, also one that would
    round to 999.99, such as 999.994. *)
Theorem validar_precio_bound_before_round :
  (forall v, (999.99 <? v)%float = true ->
             validar_precio v = Raise PrecioExcesivo)
  /\ Round.round 999.994 2 = 999.99%float
  /\ validar_precio 999.994 = Raise PrecioExcesivo.
Proof.
  split; [|split; vm_compute; reflexivity].
  intros v H. unfold validar_precio.
  rewrite (above_bound_positive v H), H. reflexivity.
Qed.

Lemma validar_precio_bound_before_round_witness :
  validar_precio 999.995 = Raise PrecioExcesivo.
Proof.
  apply (proj1 validar_precio_bound_before_round 999.995%float).
  vm_compute. reflexivity.
Defined.

(** ** Validation of a whole payload *)

(** The errors raised together are those of the fields whose validator
    raised, each under its field. *)
Lemma line_errors_spec (kw : ProductoBase) (f : Field) (e : ValueError) :
  (f, e) ∈ (line_error Fnombre (validar_nombre (nombre kw))
            ++ line_error Fcategoria (validar_categoria (categoria kw))
            ++ line_error Fprecio (validar_precio (precio kw))
            ++ line_error Fstock (validar_stock (stock kw))
            ++ line_error Fdescripcion (validar_descripcion (descripcion kw)))%list
  <-> field_error f kw = Some e.
Proof.
  rewrite !elem_of_app. unfold field_error.
  destruct (validar_nombre (nombre kw)), (validar_categoria (categoria kw)),
    (validar_precio (precio kw)), (validar_stock (stock kw)),
    (validar_descripcion (descripcion kw));
    simpl; rewrite ?elem_of_cons, ?elem_of_nil;
    destruct f; simpl; intuition congruence.
Qed.

Lemma ProductoBase_init_Ok (kw p : ProductoBase) :
  ProductoBase_init kw = Ok p <->
  validar_nombre (nombre kw) = Ok (nombre p)
  /\ validar_categoria (categoria kw) = Ok (categoria p)
  /\ validar_precio (precio kw) = Ok (precio p)
  /\ validar_stock (stock kw) = Ok (stock p)
  /\ validar_descripcion (descripcion kw) = Ok (descripcion p).
Proof.
  unfold ProductoBase_init. destruct p as [n c pr s d]; simpl.
  destruct (validar_nombre (nombre kw)), (validar_categoria (categoria kw)),
    (validar_precio (precio kw)), (validar_stock (stock kw)),
    (validar_descripcion (descripcion kw)); simpl; intuition congruence.
Qed.

Lemma ProductoBase_init_Raise (kw : ProductoBase) :
  (exists f e, field_error f kw = Some e) ->
  exists errors,
    ProductoBase_init kw = Raise errors
    /\ forall f e, (f, e) ∈ errors <-> field_error f kw = Some e.
Proof.
  intros (f & e & H).
  pose proof (line_errors_spec kw) as L.
  unfold ProductoBase_init, field_error in *.
  destruct (validar_nombre (nombre kw)), (validar_categoria (categoria kw)),
    (validar_precio (precio kw)), (validar_stock (stock kw)),
    (validar_descripcion (descripcion kw));
    try (eexists; split; [reflexivity | exact L]).
  destruct f; discriminate.
Qed.

(** C8: a create or update request of which at least one field is invalid is
    answered with one 422 response that lists every failing field with its
    error and no other; the endpoint is not entered, so no persistence
    function is called and the table is as it was. *)
Theorem invalid_payload_rejected (w : World) (producto_id : Z)
  (payload : ProductoBase) :
  (exists f e, field_error f payload = Some e) ->
  exists errors,
    POST_productos payload w = (w, mkResponse 422 (JsonErrors errors))
    /\ PUT_producto producto_id payload w
       = (w, mkResponse 422 (JsonErrors errors))
    /\ forall f e, (f, e) ∈ errors <-> field_error f payload = Some e.
Proof.
  intros H. destruct (ProductoBase_init_Raise payload H) as (errors & E & L).
  exists errors. unfold POST_productos, PUT_producto. rewrite E. auto.
Qed.

Lemma invalid_payload_rejected_witness :
  exists errors,
    POST_productos (mkProductoBase "ab" "Serum" 28.5 75 None) empty_world
    = (empty_world, mkResponse 422 (JsonErrors errors))
    /\ PUT_producto 1 (mkProductoBase "ab" "Serum" 28.5 75 None) empty_world
       = (empty_world, mkResponse 422 (JsonErrors errors))
    /\ forall f e,
         (f, e) ∈ errors <->
         field_error f (mkProductoBase "ab" "Serum" 28.5 75 None) = Some e.
Proof.
  apply (invalid_payload_rejected empty_world 1
           (mkProductoBase "ab" "Serum" 28.5 75 None)).
  exists Fnombre, NombreCorto. reflexivity.
Defined.

(** ** Not found *)

(** C4: when no row has the given id, update and delete give the not-found
    signal and leave the table as it was, and the endpoints answer 404. *)
Theorem not_found_no_write (w : World) (producto_id : Z)
  (payload producto : ProductoBase) :
  rows (db w) !! producto_id = None ->
  ProductoBase_init payload = Ok producto ->
  update_producto (db w) producto_id (nombre producto) (categoria producto)
    (precio producto) (stock producto) (descripcion producto) = (db w, false)
  /\ delete_producto (db w) producto_id = (db w, false)
  /\ (exists w',
        PUT_producto producto_id payload w
        = (w', mkResponse 404 (JsonDetail "Producto no encontrado"))
        /\ db w' = db w)
  /\ (exists w',
        DELETE_producto producto_id w
        = (w', mkResponse 404 (JsonDetail "Producto no encontrado"))
        /\ db w' = db w).
Proof.
  intros Hrow Hval.
  assert (Hu : forall n c p s d,
             update_producto (db w) producto_id n c p s d = (db w, false))
    by (intros; unfold update_producto; rewrite Hrow; reflexivity).
  assert (Hd : delete_producto (db w) producto_id = (db w, false))
    by (unfold delete_producto; rewrite Hrow; reflexivity).
  split; [apply Hu|]. split; [exact Hd|]. split.
  - unfold PUT_producto, actualizar_producto. rewrite Hval, Hu. simpl.
    eexists; split; reflexivity.
  - unfold DELETE_producto, eliminar_producto. rewrite Hd. simpl.
    eexists; split; reflexivity.
Qed.

Lemma not_found_no_write_witness :
  exists w',
    PUT_producto 999999 (mkProductoBase "Producto modificado por el test"
                           "Serum" 35.99 120 None) empty_world
    = (w', mkResponse 404 (JsonDetail "Producto no encontrado"))
    /\ db w' = db empty_world.
Proof.
  apply (not_found_no_write empty_world 999999
           (mkProductoBase "Producto modificado por el test" "Serum" 35.99 120
              None)
           (mkProductoBase "Producto modificado por el test" "Serum" 35.99 120
              None)).
  - reflexivity.
  - vm_compute. reflexivity.
Defined.

(** ** Ids *)

Lemma perform_next_id c s :
  match snd (perform c s) with
  | Some i => i = next_id s /\ next_id (fst (perform c s)) = next_id s + 1
  | None => next_id (fst (perform c s)) = next_id s
  end.
Proof.
  destruct c; simpl; auto.
  - unfold update_producto. destruct (rows s !! producto_id); reflexivity.
  - unfold delete_producto. destruct (rows s !! producto_id); reflexivity.
Qed.

Lemma ids_assigned_ge ops : forall s i, i ∈ ids_assigned s ops -> next_id s <= i.
Proof.
  induction ops as [|c ops IH]; intros s i; simpl.
  - intros H. by apply elem_of_nil in H.
  - pose proof (perform_next_id c s) as P.
    destruct (perform c s) as [s' [j|]]; simpl in P.
    + destruct P as [-> P]. intros [->|H]%elem_of_cons; [lia|].
      apply IH in H. lia.
    + intros H. apply IH in H. lia.
Qed.

Lemma table_ok_empty : table_ok empty_store.
Proof. intros i [x H]. simpl in H. by rewrite lookup_empty in H. Qed.

Lemma table_ok_perform c s : table_ok s -> table_ok (fst (perform c s)).
Proof.
  intros Hs. destruct c; simpl; auto.
  - intros i. simpl. destruct (decide (i = next_id s)) as [->|Hne].
    + lia.
    + rewrite lookup_insert_ne by congruence. intros H%Hs. lia.
  - unfold update_producto.
    destruct (rows s !! producto_id) eqn:E; simpl; [|exact Hs].
    intros i. simpl. destruct (decide (i = producto_id)) as [->|Hne].
    + intros _. apply Hs. rewrite E. eauto.
    + rewrite lookup_insert_ne by congruence. apply Hs.
  - unfold delete_producto.
    destruct (rows s !! producto_id) eqn:E; simpl; [|exact Hs].
    intros i. simpl. destruct (decide (i = producto_id)) as [->|Hne].
    + rewrite lookup_delete_eq. intros [? ?]; discriminate.
    + rewrite lookup_delete_ne by congruence. apply Hs.
Qed.

(** The id an insert assigns is not the id of any row of the table. *)
Lemma insert_producto_unused s n c p st d :
  table_ok s -> rows s !! snd (insert_producto s n c p st d) = None.
Proof.
  intros Hs. simpl. destruct (rows s !! next_id s) eqn:E; [|reflexivity].
  assert (next_id s < next_id s) by (apply Hs; rewrite E; eauto). lia.
Qed.

(** C7: over any sequence of persistence calls, the inserts receive
    pairwise different ids, whatever was deleted in between. *)
Theorem ids_never_reused (ops : list DbCall) (s : Store) :
  NoDup (ids_assigned s ops).
Proof.
  revert s; induction ops as [|c ops IH]; intros s; simpl.
  - constructor.
  - pose proof (perform_next_id c s) as P.
    destruct (perform c s) as [s' [j|]]; simpl in P; [|apply IH].
    destruct P as [-> P]. constructor; [|apply IH].
    intros H%ids_assigned_ge. lia.
Qed.

Example ids_after_delete :
  ids_assigned empty_store
    [ CallInsert (mkProductoBase "abc" "Serum" 1 1 None);
      CallDelete 1;
      CallInsert (mkProductoBase "abc" "Serum" 1 1 None) ] = [1; 2].
Proof. reflexivity. Qed.

(** ** Validating a validated value again *)

Lemma validar_nombre_idem v r :
  validar_nombre v = Ok r -> validar_nombre r = Ok r.
Proof.
  unfold validar_nombre. rewrite !falsy_strip.
  destruct (falsy (Str.strip v)) eqn:E; [discriminate|].
  destruct (Str.len (Str.strip v) <? 3) eqn:E1; [discriminate|].
  destruct (150 <? Str.len (Str.strip v)) eqn:E2; [discriminate|].
  intros [= <-]. rewrite strip_idem, E, E1, E2. reflexivity.
Qed.

Lemma validar_categoria_idem v r :
  validar_categoria v = Ok r -> validar_categoria r = Ok r.
Proof.
  rewrite !validar_categoria_unfold.
  destruct (decide (Str.title (Str.strip v) ∈ categorias_validas)) as [H|H].
  - intros [= <-].
    destruct (categorias_validas_canonical _ H) as [Ht Hs].
    rewrite Hs, Ht, decide_True by exact H. reflexivity.
  - destruct (falsy (Str.strip v)); discriminate.
Qed.

Lemma validar_stock_idem v r :
  validar_stock v = Ok r -> validar_stock r = Ok r.
Proof.
  unfold validar_stock.
  destruct (v <? 0) eqn:E1; [discriminate|].
  destruct (9999 <? v) eqn:E2; [discriminate|].
  intros [= <-]. rewrite E1, E2. reflexivity.
Qed.

Lemma validar_descripcion_idem v r :
  validar_descripcion v = Ok r -> validar_descripcion r = Ok r.
Proof.
  unfold validar_descripcion. destruct v as [t|].
  - destruct (falsy (Str.strip t)) eqn:E; [intros [= <-]; reflexivity|].
    destruct (500 <? Str.len (Str.strip t)) eqn:E2; [discriminate|].
    intros [= <-]. rewrite strip_idem, E, E2. reflexivity.
  - intros [= <-]. reflexivity.
Qed.

(** The price is the one field of which a validated value need not
    validate: a price below half a cent is accepted, and rounds to a price
    that is rejected. *)
Example validar_precio_not_idem :
  validar_precio 0.001 = Ok 0%float
  /\ validar_precio 0 = Raise PrecioNoPositivo.
Proof. vm_compute. split; reflexivity. Qed.

(** ** Create, then read *)

(** A payload whose validated form validates to itself is created with the
    next id and read back as it was stored. *)
Lemma crear_obtener_roundtrip (w : World) (payload producto : ProductoBase) :
  ProductoBase_init payload = Ok producto ->
  ProductoBase_init producto = Ok producto ->
  exists w',
    POST_productos payload w
    = (w', mkResponse 201
             (JsonProducto (mkProducto (next_id (db w)) producto)))
    /\ snd (GET_producto (next_id (db w)) w')
       = mkResponse 200
           (JsonProducto (mkProducto (next_id (db w)) producto)).
Proof.
  intros Hp Hq. unfold POST_productos, crear_producto. rewrite Hp.
  destruct producto as [n c p s d]. simpl.
  unfold Producto_init at 1. simpl. rewrite Hq. simpl.
  eexists; split; [reflexivity|].
  unfold GET_producto, obtener_producto, fetch_producto_by_id. simpl.
  rewrite lookup_insert_eq. simpl.
  unfold Producto_init. simpl. rewrite Hq. reflexivity.
Qed.

(** C1, at a valid payload whose price is below half a cent: the payload
    validates and its row is written with price 0, but the response cannot
    be built from it: the create request is answered with a server error,
    and so is reading the new id back. *)
Theorem crear_obtener_low_price :
  let payload := mkProductoBase "abc" "Serum" 0.001 1 None in
  let stored := mkProductoBase "abc" "Serum" 0 1 None in
  ProductoBase_init payload = Ok stored
  /\ snd (POST_productos payload empty_world)
     = mkResponse 500 InternalServerError
  /\ rows (db (fst (POST_productos payload empty_world))) !! 1 = Some stored
  /\ snd (GET_producto 1 (fst (POST_productos payload empty_world)))
     = mkResponse 500 InternalServerError.
Proof. vm_compute. repeat split; reflexivity. Qed.

(** C10, at a row whose price is below half a cent: the row passes the
    validators when the response is built, and the product returned has
    price 0, which the price validator rejects. *)
Theorem response_with_rejected_price :
  let s := fst (insert_producto empty_store "abc" "Serum" 0.001 1 None) in
  let returned := mkProducto 1 (mkProductoBase "abc" "Serum" 0 1 None) in
  snd (GET_producto 1 (mkWorld s []))
  = mkResponse 200 (JsonProducto returned)
  /\ snd (GET_productos (mkWorld s []))
     = mkResponse 200 (JsonProductos [returned])
  /\ field_error Fprecio (campos returned) = Some PrecioNoPositivo
  /\ ~ satisfies_constraints (campos returned).
Proof.
  vm_compute. repeat split; try reflexivity.
  intros H. specialize (H Fprecio). discriminate.
Qed.

(** * Further properties *)

(** ** Rounding a price *)

Section RoundFacts.
Import Round.

(** The result is within half a unit of the quotient. *)
Lemma div_half_even_bounds a d :
  0 < d ->
  - d <= 2 * (a - div_half_even a d * d) <= d.
Proof.
  intros Hd. unfold div_half_even.
  pose proof (Z.div_mod a d ltac:(lia)) as E.
  pose proof (Z.mod_pos_bound a d Hd) as B.
  destruct (Z.compare_spec (2 * (a mod d)) d); [destruct (Z.even (a / d))| |];
    nia.
Qed.

(** An integer strictly within half a unit of the quotient is the result. *)
Lemma div_half_even_unique a d q :
  0 < d -> - d < 2 * (a - q * d) < d -> div_half_even a d = q.
Proof.
  intros Hd Hq. pose proof (div_half_even_bounds a d Hd) as B.
  remember (div_half_even a d) as r. nia.
Qed.

Lemma div_half_even_le a d q :
  0 < d -> 2 * a < (2 * q + 1) * d -> div_half_even a d <= q.
Proof.
  intros Hd Hq. pose proof (div_half_even_bounds a d Hd) as B.
  remember (div_half_even a d) as r. nia.
Qed.

Lemma div_half_even_ge a d q :
  0 < d -> (2 * q - 1) * d < 2 * a -> q <= div_half_even a d.
Proof.
  intros Hd Hq. pose proof (div_half_even_bounds a d Hd) as B.
  remember (div_half_even a d) as r. nia.
Qed.

Lemma digits2_pos_bounds m :
  2 ^ (Zpos (digits2_pos m) - 1) <= Zpos m < 2 ^ Zpos (digits2_pos m).
Proof.
  induction m as [p IH|p IH|]; simpl digits2_pos;
    [| |simpl; lia].
  all: rewrite Pos2Z.inj_succ;
    replace (Z.succ (Zpos (digits2_pos p)) - 1) with
      (Z.succ (Zpos (digits2_pos p) - 1)) by lia;
    rewrite !Z.pow_succ_r by lia; lia.
Qed.

Lemma Prim2SF_finite_bounded v s m e :
  Prim2SF v = S754_finite s m e ->
  Zpos m < 2 ^ 53 /\ (-1074 < e -> 2 ^ 52 <= Zpos m).
Proof.
  intros E. pose proof (Prim2SF_valid v) as V. rewrite E in V.
  unfold SpecFloat.valid_binary, bounded, canonical_mantissa, fexp in V.
  apply andb_prop in V as [V _]. apply Z.eqb_eq in V.
  change (SpecFloat.emin prec emax) with (-1074) in V.
  change prec with 53 in V.
  pose proof (digits2_pos_bounds m) as [B1 B2].
  assert (D : Zpos (digits2_pos m) <= 53) by lia.
  split.
  - apply Z.lt_le_trans with (1 := B2). apply Z.pow_le_mono_r; lia.
  - intros He. assert (D' : Zpos (digits2_pos m) = 53) by lia.
    rewrite D' in B1. exact B1.
Qed.

Lemma Prim2SF_zero : Prim2SF 0 = S754_zero false.
Proof. vm_compute. reflexivity. Qed.

Lemma Prim2SF_bound : Prim2SF 999.99 = S754_finite false 8796005061277778 (-43).
Proof. vm_compute. reflexivity. Qed.

Lemma validar_precio_Ok_finite v r :
  validar_precio v = Ok r ->
  r = round v 2
  /\ (Prim2SF v = S754_nan
      \/ exists m e,
           Prim2SF v = S754_finite false m e
           /\ Zpos m < 2 ^ 53
           /\ (e < -43 \/ e = -43 /\ Zpos m <= 8796005061277778)).
Proof.
  unfold validar_precio.
  rewrite leb_spec, ltb_spec, Prim2SF_zero, Prim2SF_bound.
  destruct (Prim2SF v) as [[]|[]| |[] m e] eqn:E.
  all: try (cbv [SFleb SFltb SFcompare]; discriminate).
  - cbv [SFleb SFltb SFcompare]. intros [= <-]. auto.
  - cbv [SFleb SFltb SFcompare].
    pose proof (Prim2SF_finite_bounded v false m e E) as [Hm _].
    rewrite Pos.compare_cont_spec.
    change (8796005061277778 ?= m)%positive
      with (Zpos 8796005061277778 ?= Zpos m).
    destruct (Z.compare_spec (-43) e) as [He|He|He]; try discriminate;
      [destruct (Z.compare_spec (Zpos 8796005061277778) (Zpos m))
         as [Hc|Hc|Hc]; cbv [Pos.switch_Eq]; try discriminate|];
      intros [= <-]; (split; [reflexivity|]); right; exists m, e;
      (split; [reflexivity|]); (split; [exact Hm|]); lia.
Qed.

Lemma accepted_cents m e :
  Zpos m < 2 ^ 53 ->
  e < -43 \/ e = -43 /\ Zpos m <= 8796005061277778 ->
  0 <= div_half_even (Zpos m * 100) (2 ^ (- e)) <= 99999.
Proof.
  intros Hm He.
  assert (Hp : 2 ^ 43 <= 2 ^ (- e)) by (apply Z.pow_le_mono_r; lia).
  assert (Hq : e < -43 -> 2 ^ 44 <= 2 ^ (- e))
    by (intros; apply Z.pow_le_mono_r; lia).
  change (2 ^ 53) with 9007199254740992 in Hm.
  change (2 ^ 43) with 8796093022208 in Hp.
  change (2 ^ 44) with 17592186044416 in Hq.
  split.
  - apply div_half_even_ge; lia.
  - apply div_half_even_le; [lia|].
    destruct He as [He|[-> He]].
    + specialize (Hq He). lia.
    + change (2 ^ (- -43)) with 8796093022208. lia.
Qed.

Lemma round_finite_neg v m e :
  Prim2SF v = S754_finite false m e -> e < 0 ->
  round v 2 = nearest (div_half_even (Zpos m * 100) (2 ^ (- e))) 100.
Proof.
  intros E He. unfold round. rewrite E.
  destruct (Z.leb_spec 0 e); [lia|]. reflexivity.
Qed.

(** An accepted price is stored as a whole number of cents between 0 and
    99999, read as a float; NaN alone passes as it is. *)
Lemma validar_precio_Ok_cents v r :
  validar_precio v = Ok r ->
  Prim2SF v = S754_nan /\ r = v
  \/ exists n, 0 <= n <= 99999 /\ r = nearest n 100.
Proof.
  intros H. destruct (validar_precio_Ok_finite v r H) as [-> [E|(m & e & E & Hm & He)]].
  - left. split; [exact E|]. unfold round. rewrite E. reflexivity.
  - right. exists (div_half_even (Zpos m * 100) (2 ^ (- e))).
    split; [apply accepted_cents; assumption|].
    apply round_finite_neg; [exact E | lia].
Qed.

Lemma log2_ratio_cents n :
  1 <= n <= 99999 ->
  exists k, 43 <= k <= 59
            /\ log2_ratio n 100 = 52 - k
            /\ 100 * 2 ^ 52 <= n * 2 ^ k < 200 * 2 ^ 52.
Proof.
  intros Hn. unfold log2_ratio. change (Z.log2 100) with 6.
  pose proof (Z.log2_spec n ltac:(lia)) as S.
  assert (J : 0 <= Z.log2 n <= 16).
  { split; [apply Z.log2_nonneg|].
    change 16 with (Z.log2 99999). apply Z.log2_le_mono. lia. }
  assert (C : Z.log2 n = 0 \/ Z.log2 n = 1 \/ Z.log2 n = 2 \/ Z.log2 n = 3
              \/ Z.log2 n = 4 \/ Z.log2 n = 5 \/ Z.log2 n = 6 \/ Z.log2 n = 7
              \/ Z.log2 n = 8 \/ Z.log2 n = 9 \/ Z.log2 n = 10
              \/ Z.log2 n = 11 \/ Z.log2 n = 12 \/ Z.log2 n = 13
              \/ Z.log2 n = 14 \/ Z.log2 n = 15 \/ Z.log2 n = 16) by lia.
  clear J.
  repeat destruct C as [C|C]; rewrite C in *; clear C;
    match goal with
    | |- context [if (if ?b then _ else _) then _ else _] =>
        let v := eval vm_compute in b in change b with v
    end; cbv iota; eval_pow2;
    match goal with
    | |- context [Z.leb ?a ?b] => destruct (Z.leb_spec a b)
    end;
    match goal with
    | |- exists k, _ /\ ?l = 52 - k /\ _ => exists (52 - l)
    end;
    (split; [lia|]); (split; [lia|]); eval_pow2; lia.
Qed.

Lemma digits2_pos_53 p :
  2 ^ 52 <= Zpos p < 2 ^ 53 -> Zpos (digits2_pos p) = 53.
Proof.
  intros [L U]. pose proof (digits2_pos_bounds p) as [B1 B2].
  destruct (Z.lt_trichotomy (Zpos (digits2_pos p)) 53) as [H|[H|H]];
    [|exact H|].
  - assert (2 ^ Zpos (digits2_pos p) <= 2 ^ 52)
      by (apply Z.pow_le_mono_r; lia). lia.
  - assert (2 ^ 53 <= 2 ^ (Zpos (digits2_pos p) - 1))
      by (apply Z.pow_le_mono_r; lia). lia.
Qed.

(** The float of a number of cents between 1 and 99999: its mantissa [m]
    and exponent [- k]. *)
Lemma nearest_cents n :
  1 <= n <= 99999 ->
  exists k m,
    43 <= k <= 59
    /\ 2 ^ 52 <= m < 2 ^ 53
    /\ -50 <= n * 2 ^ k - m * 100 <= 50
    /\ (k = 43 -> m <= 8796005061277778)
    /\ Prim2SF (nearest n 100) = S754_finite false (Z.to_pos m) (- k).
Proof.
  intros Hn. destruct (log2_ratio_cents n Hn) as (k & Hk & HL & Ha).
  unfold nearest. rewrite HL.
  destruct (Z.eqb_spec n 0) as [?|_]; [lia|].
  replace (Z.max (52 - k - 52) (-1074)) with (- k) by lia.
  destruct (Z.leb_spec 0 (- k)); [lia|].
  rewrite Z.opp_involutive, (Z.pow_neg_r 2 (- k)) by lia.
  rewrite Z.mul_0_r. change (2 ^ 1024 <=? 0) with false. cbv iota.
  set (m := div_half_even (n * 2 ^ k) 100).
  pose proof (div_half_even_bounds (n * 2 ^ k) 100 ltac:(lia)) as B.
  fold m in B.
  assert (Hs : 2 ^ k = 2 ^ (k - 43) * 2 ^ 43)
    by (rewrite <- Z.pow_add_r by lia; f_equal; lia).
  assert (Hx : 0 <= 2 ^ (k - 43)) by (apply Z.pow_nonneg; lia).
  assert (Hm : 2 ^ 52 <= m < 2 ^ 53).
  { rewrite Hs in Ha, B. remember (2 ^ (k - 43)) as x.
    change (2 ^ 52) with 4503599627370496 in *.
    change (2 ^ 53) with 9007199254740992.
    change (2 ^ 43) with 8796093022208 in *. nia. }
  assert (HM : k = 43 -> m <= 8796005061277778).
  { intros ->. apply div_half_even_le; [lia|].
    change (2 ^ 43) with 8796093022208. lia. }
  exists k, m. repeat split; try lia.
  apply Prim2SF_SF2Prim.
  unfold SpecFloat.valid_binary, bounded, canonical_mantissa, fexp.
  rewrite digits2_pos_53 by (rewrite Z2Pos.id by lia; exact Hm).
  change (SpecFloat.emin prec emax) with (-1074).
  change prec with 53. change emax with 1024.
  apply andb_true_intro. split; [apply Z.eqb_eq | apply Z.leb_le]; lia.
Qed.

(** The float of a positive number of cents up to 99999 passes the price
    validator unchanged. *)
Lemma validar_precio_cents n :
  1 <= n <= 99999 ->
  validar_precio (nearest n 100) = Ok (nearest n 100).
Proof.
  intros Hn. destruct (nearest_cents n Hn) as (k & m & Hk & Hm & Hd & HM & E).
  assert (Hp : 2 ^ 43 <= 2 ^ k) by (apply Z.pow_le_mono_r; lia).
  change (2 ^ 43) with 8796093022208 in Hp.
  assert (Hm0 : 0 < m) by (change (2 ^ 52) with 4503599627370496 in Hm; lia).
  unfold validar_precio.
  rewrite leb_spec, ltb_spec, Prim2SF_zero, Prim2SF_bound, E.
  cbv [SFleb SFltb SFcompare].
  rewrite Pos.compare_cont_spec.
  change (8796005061277778 ?= Z.to_pos m)%positive
    with (Zpos 8796005061277778 ?= Zpos (Z.to_pos m)).
  rewrite Z2Pos.id by exact Hm0.
  assert (R : round (nearest n 100) 2 = nearest n 100).
  { rewrite (round_finite_neg _ _ _ E) by lia.
    f_equal. rewrite Z2Pos.id, Z.opp_involutive by exact Hm0.
    apply div_half_even_unique; lia. }
  rewrite R.
  destruct (Z.compare_spec (-43) (- k)) as [He|He|He]; [|lia|reflexivity].
  destruct (Z.compare_spec 8796005061277778 m) as [Hc|Hc|Hc];
    [reflexivity| |reflexivity].
  specialize (HM ltac:(lia)). lia.
Qed.

(** The float of a number of cents up to 99999 is neither negative nor above
    999.99. *)
Lemma nearest_cents_range n :
  0 <= n <= 99999 ->
  (nearest n 100 <? 0)%float = false
  /\ (999.99 <? nearest n 100)%float = false.
Proof.
  intros Hn. destruct (Z.eq_dec n 0) as [->|Hne].
  { vm_compute. split; reflexivity. }
  destruct (nearest_cents n ltac:(lia)) as (k & m & Hk & Hm & Hd & HM & E).
  assert (Hm0 : 0 < m) by (change (2 ^ 52) with 4503599627370496 in Hm; lia).
  rewrite !ltb_spec, Prim2SF_zero, Prim2SF_bound, E.
  cbv [SFleb SFltb SFcompare].
  rewrite Pos.compare_cont_spec.
  change (8796005061277778 ?= Z.to_pos m)%positive
    with (Zpos 8796005061277778 ?= Zpos (Z.to_pos m)).
  rewrite Z2Pos.id by exact Hm0.
  split; [reflexivity|].
  destruct (Z.compare_spec (-43) (- k)) as [He|He|He]; [|lia|reflexivity].
  destruct (Z.compare_spec 8796005061277778 m) as [Hc|Hc|Hc];
    [reflexivity| |reflexivity].
  specialize (HM ltac:(lia)). lia.
Qed.

(** Validating an accepted price again: it passes unchanged unless it was
    rounded to zero, which is rejected. *)
Lemma validar_precio_again v r :
  validar_precio v = Ok r ->
  r = 0%float /\ validar_precio r = Raise PrecioNoPositivo
  \/ validar_precio r = Ok r.
Proof.
  intros H. destruct (validar_precio_Ok_cents v r H) as [[E ->]|(n & Hn & ->)].
  - right. revert H. unfold validar_precio, round. rewrite E.
    destruct (v <=? 0)%float; [discriminate|].
    destruct (999.99 <? v)%float; [discriminate|]. reflexivity.
  - destruct (Z.eq_dec n 0) as [->|Hne].
    + left. vm_compute. split; reflexivity.
    + right. apply validar_precio_cents. lia.
Qed.

End RoundFacts.

(** ** Stock *)

(** X1: a stock is rejected as negative exactly below 0 and as excessive
    exactly above 9999; from 0 to 9999 it is accepted and kept as it is. *)
Theorem validar_stock_spec (v : Z) :
  (validar_stock v = Raise StockNegativo <-> v < 0)
  /\ (validar_stock v = Raise StockExcesivo <-> 9999 < v)
  /\ (forall r, validar_stock v = Ok r <-> r = v /\ 0 <= v <= 9999).
Proof.
  unfold validar_stock.
  destruct (Z.ltb_spec v 0); [|destruct (Z.ltb_spec 9999 v)].
  - split; [tauto|]. split; [split; [discriminate | lia]|].
    intros r. split; [discriminate | lia].
  - split; [split; [discriminate | lia]|]. split; [tauto|].
    intros r. split; [discriminate | lia].
  - split; [split; [discriminate | lia]|].
    split; [split; [discriminate | lia]|].
    intros r. split; [intros [= <-]; lia | intros [-> _]; reflexivity].
Qed.

Lemma validar_stock_spec_witness : validar_stock 75 = Ok 75.
Proof. apply (proj2 (proj2 (validar_stock_spec 75))). lia. Defined.

(** ** Which rule failed *)

Lemma validar_nombre_cases v :
  Str.strip v = "" /\ validar_nombre v = Raise NombreVacio
  \/ Str.strip v <> "" /\ Str.len (Str.strip v) < 3
     /\ validar_nombre v = Raise NombreCorto
  \/ Str.strip v <> "" /\ 150 < Str.len (Str.strip v)
     /\ validar_nombre v = Raise NombreLargo
  \/ Str.strip v <> "" /\ 3 <= Str.len (Str.strip v) <= 150
     /\ validar_nombre v = Ok (Str.strip v).
Proof.
  unfold validar_nombre. rewrite falsy_strip.
  destruct (falsy (Str.strip v)) eqn:E.
  - apply falsy_true in E. auto.
  - assert (Hne : Str.strip v <> "")
      by (intros H; apply falsy_true in H; congruence).
    destruct (Z.ltb_spec (Str.len (Str.strip v)) 3); [auto|].
    destruct (Z.ltb_spec 150 (Str.len (Str.strip v))); [auto 6|].
    right; right; right. repeat split; auto; lia.
Qed.

Lemma validar_categoria_cases v :
  Str.strip v = "" /\ validar_categoria v = Raise CategoriaVacia
  \/ Str.strip v <> "" /\ (Str.title (Str.strip v) ∉ categorias_validas)
     /\ validar_categoria v
        = Raise (CategoriaNoValida (Str.join ", " categorias_validas))
  \/ Str.strip v <> "" /\ (Str.title (Str.strip v) ∈ categorias_validas)
     /\ validar_categoria v = Ok (Str.title (Str.strip v)).
Proof.
  unfold validar_categoria. rewrite falsy_strip.
  destruct (falsy (Str.strip v)) eqn:E.
  - apply falsy_true in E. auto.
  - assert (Hne : Str.strip v <> "")
      by (intros H; apply falsy_true in H; congruence).
    destruct (decide (Str.title (Str.strip v) ∈ categorias_validas)); auto.
Qed.

(** X2: the error of a name, a category or a price names the rule that
    failed: an empty trimmed text, a short or a long name, a category that
    matches no allowed one, a price at most 0 or above 999.99. *)
Theorem validator_error_kinds (v : string) (p : float) :
  (validar_nombre v = Raise NombreVacio <-> Str.strip v = "")
  /\ (validar_nombre v = Raise NombreCorto <->
      Str.strip v <> "" /\ Str.len (Str.strip v) < 3)
  /\ (validar_nombre v = Raise NombreLargo <-> 150 < Str.len (Str.strip v))
  /\ (validar_categoria v = Raise CategoriaVacia <-> Str.strip v = "")
  /\ (validar_categoria v
      = Raise (CategoriaNoValida (Str.join ", " categorias_validas)) <->
      Str.strip v <> "" /\ (Str.title (Str.strip v) ∉ categorias_validas))
  /\ (validar_precio p = Raise PrecioNoPositivo <-> (p <=? 0)%float = true)
  /\ (validar_precio p = Raise PrecioExcesivo <-> (999.99 <? p)%float = true).
Proof.
  assert (L0 : Str.len "" = 0) by reflexivity.
  split; [|split; [|split]].
  1-3: destruct (validar_nombre_cases v)
         as [[E ->]|[(E & B & ->)|[(E & B & ->)|(E & B & ->)]]];
       try rewrite E, L0;
       split; intros; try discriminate; try tauto; try lia; try congruence.
  split; [|split].
  1-2: destruct (validar_categoria_cases v)
         as [[E ->]|[(E & B & ->)|(E & B & ->)]];
       split; intros; try discriminate; try tauto; try congruence.
  unfold validar_precio. split.
  - destruct (p <=? 0)%float; [tauto|].
    destruct (999.99 <? p)%float; split; discriminate.
  - destruct (999.99 <? p)%float eqn:E2.
    + rewrite (above_bound_positive p E2). tauto.
    + destruct (p <=? 0)%float; split; discriminate.
Qed.

(** ** Surrounding white space and case *)

(** X3: the text validators see a value only through its trimmed form: two
    texts that differ in surrounding white space alone get the same
    answer from the validators of name, category and description. *)
Theorem validators_ignore_outer_space (v w : string) :
  Str.strip v = Str.strip w ->
  validar_nombre v = validar_nombre w
  /\ validar_categoria v = validar_categoria w
  /\ validar_descripcion (Some v) = validar_descripcion (Some w).
Proof.
  intros E. unfold validar_nombre, validar_categoria, validar_descripcion.
  rewrite !falsy_strip, E. auto.
Qed.

Lemma validators_ignore_outer_space_witness :
  validar_nombre "  Snail 92  " = validar_nombre "Snail 92"
  /\ validar_categoria "  Snail 92  " = validar_categoria "Snail 92"
  /\ validar_descripcion (Some "  Snail 92  ")
     = validar_descripcion (Some "Snail 92").
Proof.
  apply (validators_ignore_outer_space "  Snail 92  " "Snail 92").
  reflexivity.
Defined.

(** X4: the category validator does not see the case of its input: two
    texts whose trimmed forms are equal up to case get the same answer. *)
Theorem validar_categoria_ignores_case (v w : string) :
  Str.eq_ignore_case (Str.strip v) (Str.strip w) ->
  validar_categoria v = validar_categoria w.
Proof.
  intros E. rewrite !validar_categoria_unfold.
  rewrite (title_eq_ignore_case _ _ E).
  assert (F : falsy (Str.strip v) = falsy (Str.strip w)).
  { unfold Str.eq_ignore_case in E.
    destruct (Str.strip v), (Str.strip w); simpl in *; congruence. }
  rewrite F. reflexivity.
Qed.

Lemma validar_categoria_ignores_case_witness :
  validar_categoria " eYE cream" = validar_categoria "Eye Cream  ".
Proof.
  apply (validar_categoria_ignores_case " eYE cream" "Eye Cream  ").
  reflexivity.
Defined.

(** ** What a validated price is *)

Lemma validar_precio_Ok_range v r :
  validar_precio v = Ok r ->
  (r <? 0)%float = false /\ (999.99 <? r)%float = false.
Proof.
  intros H. destruct (validar_precio_Ok_cents v r H) as [[E ->]|(n & Hn & ->)].
  - rewrite !ltb_spec, E. split; reflexivity.
  - apply nearest_cents_range, Hn.
Qed.

(** X5: an accepted price is stored as a whole number of cents from 0 to
    99999, as the float nearest to it, so that it is neither negative nor
    above 999.99; NaN alone is accepted and kept as it is. *)
Theorem validar_precio_result (v r : float) :
  validar_precio v = Ok r ->
  (r <? 0)%float = false
  /\ (999.99 <? r)%float = false
  /\ (Prim2SF v = S754_nan /\ r = v
      \/ exists n, 0 <= n <= 99999 /\ r = Round.nearest n 100).
Proof.
  intros H. destruct (validar_precio_Ok_range v r H) as [H1 H2].
  split; [exact H1|]. split; [exact H2|].
  apply validar_precio_Ok_cents, H.
Qed.

Lemma validar_precio_result_witness :
  (Round.round 28.504 2 <? 0)%float = false
  /\ (999.99 <? Round.round 28.504 2)%float = false
  /\ (Prim2SF 28.504 = S754_nan /\ Round.round 28.504 2 = 28.504%float
      \/ exists n, 0 <= n <= 99999
                   /\ Round.round 28.504 2 = Round.nearest n 100).
Proof.
  apply (validar_precio_result 28.504 (Round.round 28.504 2)).
  vm_compute. reflexivity.
Defined.

(** X6: an accepted price passes the validator again, unchanged, exactly
    when it was not rounded to zero. *)
Theorem validar_precio_revalidated (v r : float) :
  validar_precio v = Ok r ->
  (validar_precio r = Ok r <-> r <> 0%float).
Proof.
  intros H. destruct (validar_precio_again v r H) as [[-> E]|E].
  - rewrite E. split; [discriminate | congruence].
  - split; [|intros _; exact E].
    intros _ ->. vm_compute in E. discriminate.
Qed.

Lemma validar_precio_revalidated_witness :
  validar_precio 28.5 = Ok 28.5%float <-> 28.5%float <> 0%float.
Proof.
  apply (validar_precio_revalidated 28.5 28.5). vm_compute. reflexivity.
Defined.

(** ** What a validated payload is *)

Lemma len_nonempty s : s <> "" -> 1 <= Str.len s.
Proof. destruct s; [congruence|]. unfold Str.len. simpl String.length. lia. Qed.

Lemma validar_descripcion_Ok v d :
  validar_descripcion v = Ok (Some d) ->
  Str.strip d = d /\ 1 <= Str.len d <= 500.
Proof.
  unfold validar_descripcion. destruct v as [t|]; [|discriminate].
  destruct (falsy (Str.strip t)) eqn:E; [discriminate|].
  destruct (Z.ltb_spec 500 (Str.len (Str.strip t))); [discriminate|].
  intros [= <-]. split; [apply strip_idem|]. split; [|assumption].
  apply len_nonempty. intros F. apply falsy_true in F. congruence.
Qed.

(** X7: every field of a validated payload is within its bounds: a trimmed
    name of 3 to 150 characters, one of the ten categories, a price neither
    negative nor above 999.99, a stock from 0 to 9999 and a description
    that is absent or trimmed, not empty and of at most 500 characters. *)
Theorem validated_fields_bounds (kw p : ProductoBase) :
  ProductoBase_init kw = Ok p ->
  (Str.strip (nombre p) = nombre p /\ 3 <= Str.len (nombre p) <= 150)
  /\ (categoria p ∈ categorias_validas)
  /\ ((precio p <? 0)%float = false /\ (999.99 <? precio p)%float = false)
  /\ 0 <= stock p <= 9999
  /\ match descripcion p with
     | None => True
     | Some d => Str.strip d = d /\ 1 <= Str.len d <= 500
     end.
Proof.
  intros H. apply ProductoBase_init_Ok in H as (Hn & Hc & Hp & Hs & Hd).
  split; [|split; [|split; [|split]]].
  - destruct (validar_nombre_cases (nombre kw))
      as [[_ E]|[(_ & _ & E)|[(_ & _ & E)|(_ & B & E)]]];
      rewrite E in Hn; try discriminate.
    injection Hn as <-. split; [apply strip_idem | exact B].
  - destruct (validar_categoria_cases (categoria kw))
      as [[_ E]|[(_ & _ & E)|(_ & B & E)]];
      rewrite E in Hc; try discriminate.
    injection Hc as <-. exact B.
  - exact (validar_precio_Ok_range _ _ Hp).
  - revert Hs. unfold validar_stock.
    destruct (Z.ltb_spec (stock kw) 0); [discriminate|].
    destruct (Z.ltb_spec 9999 (stock kw)); [discriminate|].
    intros [= <-]. lia.
  - destruct (descripcion p) as [d|]; [|exact I].
    exact (validar_descripcion_Ok _ _ Hd).
Qed.

Lemma validated_fields_bounds_witness :
  categoria (mkProductoBase "Snail 92" "Moisturizer" 28.5 75 None)
  ∈ categorias_validas.
Proof.
  apply (validated_fields_bounds
           (mkProductoBase "  Snail 92 " "moisturizer" 28.5 75 (Some " "))
           (mkProductoBase "Snail 92" "Moisturizer" 28.5 75 None)).
  vm_compute. reflexivity.
Defined.

(** ** Validating a validated payload again *)

(** A validated payload validates to itself, unless its price was rounded
    to zero: then the price alone is rejected. *)
Lemma ProductoBase_init_again (kw p : ProductoBase) :
  ProductoBase_init kw = Ok p ->
  precio p <> 0%float /\ ProductoBase_init p = Ok p
  \/ precio p = 0%float
     /\ ProductoBase_init p = Raise [(Fprecio, PrecioNoPositivo)].
Proof.
  intros H. apply ProductoBase_init_Ok in H as (Hn & Hc & Hp & Hs & Hd).
  apply validar_nombre_idem in Hn. apply validar_categoria_idem in Hc.
  apply validar_stock_idem in Hs. apply validar_descripcion_idem in Hd.
  destruct (validar_precio_again _ _ Hp) as [[E0 E]|E].
  - right. split; [exact E0|].
    unfold ProductoBase_init. rewrite Hn, Hc, E, Hs, Hd. reflexivity.
  - left. split.
    + intros E0. rewrite E0 in E. vm_compute in E. discriminate.
    + apply ProductoBase_init_Ok. auto.
Qed.

(** X8: a validated payload satisfies every field constraint, and validates
    to itself, exactly when its price was not rounded to zero; when it
    was, validating it again fails on the price alone. *)
Theorem validated_payload_revalidated (kw p : ProductoBase) :
  ProductoBase_init kw = Ok p ->
  (satisfies_constraints p <-> precio p <> 0%float)
  /\ (ProductoBase_init p = Ok p <-> precio p <> 0%float)
  /\ (precio p = 0%float ->
      ProductoBase_init p = Raise [(Fprecio, PrecioNoPositivo)]).
Proof.
  intros H. destruct (ProductoBase_init_again kw p H) as [[Hp E]|[Hp E]].
  - split; [|split; [tauto | congruence]].
    split; [tauto|]. intros _ f.
    apply ProductoBase_init_Ok in E as (Hn & Hc & Hq & Hs & Hd).
    destruct f; simpl; [rewrite Hn|rewrite Hc|rewrite Hq|rewrite Hs|rewrite Hd];
      reflexivity.
  - split; [|split; [|tauto]].
    + split; [|congruence]. intros S. specialize (S Fprecio).
      unfold field_error in S. rewrite Hp in S. vm_compute in S.
      discriminate.
    + rewrite E. split; [discriminate | congruence].
Qed.

Lemma validated_payload_revalidated_witness :
  ProductoBase_init (mkProductoBase "abc" "Serum" 0 1 None)
  = Raise [(Fprecio, PrecioNoPositivo)].
Proof.
  apply (validated_payload_revalidated
           (mkProductoBase "abc" "Serum" 0.001 1 None)
           (mkProductoBase "abc" "Serum" 0 1 None)).
  - vm_compute. reflexivity.
  - reflexivity.
Defined.

(** ** The errors raised together *)

(** X9: a validation error is never empty and lists the failing fields in
    the order of their declaration, each one once. *)
Theorem validation_errors_shape (kw : ProductoBase) (errors : ValidationError) :
  ProductoBase_init kw = Raise errors ->
  errors <> []
  /\ StronglySorted (fun a b => field_index (fst a) < field_index (fst b))
       errors.
Proof.
  unfold ProductoBase_init.
  destruct (validar_nombre (nombre kw)), (validar_categoria (categoria kw)),
    (validar_precio (precio kw)), (validar_stock (stock kw)),
    (validar_descripcion (descripcion kw));
    intros [= <-]; (split; [discriminate|]); simpl;
    repeat (constructor; simpl; try lia).
Qed.

Lemma validation_errors_shape_witness :
  [(Fnombre, NombreCorto); (Fstock, StockNegativo)] <> []
  /\ StronglySorted (fun a b => field_index (fst a) < field_index (fst b))
       [(Fnombre, NombreCorto); (Fstock, StockNegativo)].
Proof.
  apply (validation_errors_shape
           (mkProductoBase "ab" "Serum" 28.5 (-1) None)).
  vm_compute. reflexivity.
Defined.

(** ** The endpoints on a valid payload *)

(** Building the response from validated fields: it succeeds with these
    fields, unless the price was rounded to zero. *)
Lemma Producto_init_again (kw p : ProductoBase) (i : Z) :
  ProductoBase_init kw = Ok p ->
  precio p <> 0%float /\ Producto_init (mkProducto i p) = Ok (mkProducto i p)
  \/ precio p = 0%float
     /\ Producto_init (mkProducto i p) = Raise [(Fprecio, PrecioNoPositivo)].
Proof.
  intros H. unfold Producto_init. simpl.
  destruct (ProductoBase_init_again kw p H) as [[Hp ->]|[Hp ->]]; auto.
Qed.

Lemma ProductoBase_eta (p : ProductoBase) :
  mkProductoBase (nombre p) (categoria p) (precio p) (stock p) (descripcion p)
  = p.
Proof. destruct p; reflexivity. Qed.

(** X10: a create request with a valid payload calls [insert_producto]
    once, with the validated fields.  It is answered 201 with these fields
    under the assigned id when the price was not rounded to zero, and
    with a server error, after the insert, when it was. *)
Theorem POST_valid_payload (w : World) (payload producto : ProductoBase) :
  ProductoBase_init payload = Ok producto ->
  let r := insert_producto (db w) (nombre producto) (categoria producto)
             (precio producto) (stock producto) (descripcion producto) in
  let w' := call (CallInsert producto) (fst r) w in
  (precio producto <> 0%float ->
   POST_productos payload w
   = (w', mkResponse 201 (JsonProducto (mkProducto (snd r) producto))))
  /\ (precio producto = 0%float ->
      POST_productos payload w = (w', mkResponse 500 InternalServerError)).
Proof.
  intros H r w'. unfold POST_productos, crear_producto. rewrite H.
  fold r. destruct r as [s i] eqn:Er. simpl in w'.
  rewrite ProductoBase_eta.
  destruct (Producto_init_again payload producto i H) as [[Hp ->]|[Hp ->]];
    split; intros; try congruence; reflexivity.
Qed.

Lemma POST_valid_payload_witness :
  POST_productos (mkProductoBase " Snail 92" "mask" 28.5 75 None) empty_world
  = (call (CallInsert (mkProductoBase "Snail 92" "Mask" 28.5 75 None))
       (fst (insert_producto empty_store "Snail 92" "Mask" 28.5 75 None))
       empty_world,
     mkResponse 201
       (JsonProducto
          (mkProducto 1 (mkProductoBase "Snail 92" "Mask" 28.5 75 None)))).
Proof.
  apply (POST_valid_payload empty_world
           (mkProductoBase " Snail 92" "mask" 28.5 75 None)
           (mkProductoBase "Snail 92" "Mask" 28.5 75 None)).
  - vm_compute. reflexivity.
  - intros H. vm_compute in H. discriminate.
Defined.

(** X11: an update request with a valid payload calls [update_producto]
    once, with the validated fields.  It is answered 404 when the call
    reports no row; otherwise 200 with these fields under the id of the
    path when the price was not rounded to zero, and with a server error,
    after the update, when it was. *)
Theorem PUT_valid_payload (w : World) (producto_id : Z)
  (payload producto : ProductoBase) :
  ProductoBase_init payload = Ok producto ->
  let r := update_producto (db w) producto_id (nombre producto)
             (categoria producto) (precio producto) (stock producto)
             (descripcion producto) in
  let w' := call (CallUpdate producto_id producto) (fst r) w in
  (snd r = false ->
   PUT_producto producto_id payload w
   = (w', mkResponse 404 (JsonDetail "Producto no encontrado")))
  /\ (snd r = true -> precio producto <> 0%float ->
      PUT_producto producto_id payload w
      = (w', mkResponse 200
               (JsonProducto (mkProducto producto_id producto))))
  /\ (snd r = true -> precio producto = 0%float ->
      PUT_producto producto_id payload w
      = (w', mkResponse 500 InternalServerError)).
Proof.
  intros H r w'. unfold PUT_producto, actualizar_producto. rewrite H.
  fold r. destruct r as [s ok] eqn:Er. simpl in w'. simpl snd.
  rewrite ProductoBase_eta.
  destruct ok; simpl negb; cbv iota.
  - destruct (Producto_init_again payload producto producto_id H)
      as [[Hp ->]|[Hp ->]];
      repeat split; intros; try congruence; reflexivity.
  - repeat split; intros; try congruence; reflexivity.
Qed.

Lemma PUT_valid_payload_witness :
  PUT_producto 7 (mkProductoBase "Snail 92" "Mask" 28.5 75 None) empty_world
  = (call (CallUpdate 7 (mkProductoBase "Snail 92" "Mask" 28.5 75 None))
       empty_store empty_world,
     mkResponse 404 (JsonDetail "Producto no encontrado")).
Proof.
  apply (PUT_valid_payload empty_world 7
           (mkProductoBase "Snail 92" "Mask" 28.5 75 None)
           (mkProductoBase "Snail 92" "Mask" 28.5 75 None)).
  - vm_compute. reflexivity.
  - reflexivity.
Defined.

(** ** Reading *)

(** X12: reading one product answers 404 when no row is fetched; when the
    fetched row holds validated fields, it answers 200 with the row as it
    is, unless the price is zero, which gives a server error. *)
Theorem GET_producto_cases (w : World) (producto_id : Z) :
  (fetch_producto_by_id (db w) producto_id = None ->
   snd (GET_producto producto_id w)
   = mkResponse 404 (JsonDetail "Producto no encontrado"))
  /\ (forall row kw,
        fetch_producto_by_id (db w) producto_id = Some row ->
        ProductoBase_init kw = Ok (campos row) ->
        (precio (campos row) <> 0%float ->
         snd (GET_producto producto_id w)
         = mkResponse 200 (JsonProducto row))
        /\ (precio (campos row) = 0%float ->
            snd (GET_producto producto_id w)
            = mkResponse 500 InternalServerError)).
Proof.
  unfold GET_producto, obtener_producto. split.
  - intros ->. reflexivity.
  - intros [i p] kw -> H. simpl in H.
    destruct (Producto_init_again kw p i H) as [[Hp ->]|[Hp ->]];
      split; intros; simpl in *; try congruence; reflexivity.
Qed.

Lemma GET_producto_cases_witness :
  snd (GET_producto 5 empty_world)
  = mkResponse 404 (JsonDetail "Producto no encontrado").
Proof. apply (proj1 (GET_producto_cases empty_world 5)). reflexivity. Defined.

Lemma Producto_init_all_Ok rows :
  Forall (fun row => ~ raises (Producto_init row)) rows ->
  exists ps, Producto_init_all rows = Ok ps
             /\ Forall2 (fun row p => Producto_init row = Ok p) rows ps.
Proof.
  induction 1 as [|row rows Hrow _ IH]; simpl.
  - exists []. split; [reflexivity | constructor].
  - destruct (Producto_init row) as [p|e] eqn:E; [|simpl in Hrow; tauto].
    destruct IH as (ps & -> & F). exists (p :: ps).
    split; [reflexivity | constructor; assumption].
Qed.

Lemma Producto_init_all_Raise rows :
  Exists (fun row => raises (Producto_init row)) rows ->
  raises (Producto_init_all rows).
Proof.
  induction 1 as [row rows Hrow|row rows _ IH]; simpl.
  - destruct (Producto_init row); [destruct Hrow | exact I].
  - destruct (Producto_init row); [|exact I].
    destruct (Producto_init_all rows); [destruct IH | exact I].
Qed.

(** X13: the listing is all or nothing: one fetched row that does not
    validate turns the whole answer into a server error; when every row
    validates, the answer is 200 with the validated rows, one per row and
    in the order fetched. *)
Theorem GET_productos_all_or_nothing (w : World) :
  (Exists (fun row => raises (Producto_init row))
     (fetch_all_productos (db w)) ->
   snd (GET_productos w) = mkResponse 500 InternalServerError)
  /\ (Forall (fun row => ~ raises (Producto_init row))
        (fetch_all_productos (db w)) ->
      exists ps,
        snd (GET_productos w) = mkResponse 200 (JsonProductos ps)
        /\ Forall2 (fun row p => Producto_init row = Ok p)
             (fetch_all_productos (db w)) ps).
Proof.
  unfold GET_productos, listar_productos. split.
  - intros H%Producto_init_all_Raise.
    destruct (Producto_init_all (fetch_all_productos (db w)));
      [destruct H | reflexivity].
  - intros (ps & E & F)%Producto_init_all_Ok. rewrite E. eauto.
Qed.

Lemma GET_productos_all_or_nothing_witness :
  exists ps,
    snd (GET_productos empty_world) = mkResponse 200 (JsonProductos ps)
    /\ Forall2 (fun row p => Producto_init row = Ok p)
         (fetch_all_productos (db empty_world)) ps.
Proof.
  apply (proj2 (GET_productos_all_or_nothing empty_world)). constructor.
Defined.

(** ** Writing, then reading *)

(** X14: a valid payload whose price is not rounded to zero is created and
    read back as the same product: the validated fields under the new
    id. *)
Theorem crear_obtener_valid_price (w : World)
  (payload producto : ProductoBase) :
  ProductoBase_init payload = Ok producto ->
  precio producto <> 0%float ->
  exists w' p,
    POST_productos payload w = (w', mkResponse 201 (JsonProducto p))
    /\ campos p = producto
    /\ snd (GET_producto (id p) w') = mkResponse 200 (JsonProducto p).
Proof.
  intros H Hp.
  destruct (ProductoBase_init_again payload producto H) as [[_ E]|[E _]];
    [|congruence].
  destruct (crear_obtener_roundtrip w payload producto H E) as (w' & E1 & E2).
  exists w', (mkProducto (next_id (db w)) producto). auto.
Qed.

Lemma crear_obtener_valid_price_witness :
  exists w' p,
    POST_productos (mkProductoBase " Snail 92" "mask" 28.504 75 None)
      empty_world
    = (w', mkResponse 201 (JsonProducto p))
    /\ campos p = mkProductoBase "Snail 92" "Mask" 28.5 75 None
    /\ snd (GET_producto (id p) w') = mkResponse 200 (JsonProducto p).
Proof.
  apply (crear_obtener_valid_price empty_world
           (mkProductoBase " Snail 92" "mask" 28.504 75 None)
           (mkProductoBase "Snail 92" "Mask" 28.5 75 None)).
  - vm_compute. reflexivity.
  - intros H. vm_compute in H. discriminate.
Defined.

(** X15: a valid payload whose price is rounded to zero, once created,
    makes the listing fail: every later request for the list is answered
    with a server error, whatever else the table holds. *)
Theorem low_price_breaks_listing (w : World)
  (payload producto : ProductoBase) :
  ProductoBase_init payload = Ok producto ->
  precio producto = 0%float ->
  snd (GET_productos (fst (POST_productos payload w)))
  = mkResponse 500 InternalServerError.
Proof.
  intros H Hp.
  destruct (POST_valid_payload w payload producto H) as [_ E].
  rewrite (E Hp). simpl fst.
  apply (proj1 (GET_productos_all_or_nothing _)).
  apply Exists_exists. exists (mkProducto (next_id (db w)) producto). split.
  - unfold fetch_all_productos. simpl.
    rewrite ProductoBase_eta.
    apply (list_elem_of_fmap_2
             (fun ir : Z * ProductoBase => mkProducto ir.1 ir.2)
             _ (next_id (db w), producto)).
    apply elem_of_map_to_list, lookup_insert_eq.
  - destruct (Producto_init_again payload producto (next_id (db w)) H)
      as [[Hq _]|[_ ->]]; [congruence | exact I].
Qed.

Lemma low_price_breaks_listing_witness :
  snd (GET_productos
         (fst (POST_productos (mkProductoBase "abc" "Serum" 0.001 1 None)
                 empty_world)))
  = mkResponse 500 InternalServerError.
Proof.
  apply (low_price_breaks_listing empty_world
           (mkProductoBase "abc" "Serum" 0.001 1 None)
           (mkProductoBase "abc" "Serum" 0 1 None)).
  - vm_compute. reflexivity.
  - reflexivity.
Defined.

(** ** What the requests keep *)

Lemma rows_validated_empty : rows_validated empty_world.
Proof. intros i row H. simpl in H. by rewrite lookup_empty in H. Qed.

Lemma db_GET_productos w : db (fst (GET_productos w)) = db w.
Proof.
  unfold GET_productos, listar_productos.
  destruct (Producto_init_all _); reflexivity.
Qed.

Lemma db_GET_producto i w : db (fst (GET_producto i w)) = db w.
Proof.
  unfold GET_producto, obtener_producto.
  destruct (fetch_producto_by_id (db w) i) as [row|]; [|reflexivity].
  destruct (Producto_init row); reflexivity.
Qed.

Lemma db_POST_productos payload w :
  db (fst (POST_productos payload w))
  = match ProductoBase_init payload with
    | Ok p => mkStore (<[next_id (db w) := p]> (rows (db w)))
                      (next_id (db w) + 1)
    | Raise _ => db w
    end.
Proof.
  unfold POST_productos.
  destruct (ProductoBase_init payload) as [p|e]; [|reflexivity].
  unfold crear_producto, insert_producto. rewrite ProductoBase_eta.
  destruct (Producto_init _); reflexivity.
Qed.

Lemma db_PUT_producto i payload w :
  db (fst (PUT_producto i payload w))
  = match ProductoBase_init payload, rows (db w) !! i with
    | Ok p, Some _ => mkStore (<[i := p]> (rows (db w))) (next_id (db w))
    | _, _ => db w
    end.
Proof.
  unfold PUT_producto.
  destruct (ProductoBase_init payload) as [p|e]; [|reflexivity].
  unfold actualizar_producto, update_producto. rewrite ProductoBase_eta.
  destruct (rows (db w) !! i); [|reflexivity]. simpl.
  destruct (Producto_init _); reflexivity.
Qed.

Lemma db_DELETE_producto i w :
  db (fst (DELETE_producto i w))
  = match rows (db w) !! i with
    | Some _ => mkStore (delete i (rows (db w))) (next_id (db w))
    | None => db w
    end.
Proof.
  unfold DELETE_producto, eliminar_producto, delete_producto.
  destruct (rows (db w) !! i); reflexivity.
Qed.

Lemma rows_validated_handle req w :
  rows_validated w -> rows_validated (fst (handle req w)).
Proof.
  intros Hw j row. destruct req as [|i|payload|i payload|i]; simpl.
  - rewrite db_GET_productos. apply Hw.
  - rewrite db_GET_producto. apply Hw.
  - rewrite db_POST_productos.
    destruct (ProductoBase_init payload) as [p|e] eqn:E; [|apply Hw]. simpl.
    destruct (decide (j = next_id (db w))) as [->|Hne].
    + rewrite lookup_insert_eq. intros [= <-]. eauto.
    + rewrite lookup_insert_ne by congruence. apply Hw.
  - rewrite db_PUT_producto.
    destruct (ProductoBase_init payload) as [p|e] eqn:E; [|apply Hw].
    destruct (rows (db w) !! i) eqn:Ei; [|apply Hw]. simpl.
    destruct (decide (j = i)) as [->|Hne].
    + rewrite lookup_insert_eq. intros [= <-]. eauto.
    + rewrite lookup_insert_ne by congruence. apply Hw.
  - rewrite db_DELETE_producto.
    destruct (rows (db w) !! i) eqn:Ei; [|apply Hw]. simpl.
    destruct (decide (j = i)) as [->|Hne].
    + rewrite lookup_delete_eq. discriminate.
    + rewrite lookup_delete_ne by congruence. apply Hw.
Qed.

Lemma rows_validated_run reqs w :
  rows_validated w -> rows_validated (run reqs w).
Proof.
  revert w; induction reqs as [|req reqs IH]; intros w Hw; simpl;
    [exact Hw | apply IH, rows_validated_handle, Hw].
Qed.

(** X16: whatever requests have been answered since the table was empty,
    every row of the table holds the validated form of some payload: the
    endpoints never write a field as it was received. *)
Theorem persisted_rows_validated (reqs : list Request) (i : Z)
  (row : ProductoBase) :
  rows (db (run reqs empty_world)) !! i = Some row ->
  exists kw, ProductoBase_init kw = Ok row.
Proof. apply rows_validated_run, rows_validated_empty. Qed.

Lemma persisted_rows_validated_witness :
  exists kw,
    ProductoBase_init kw = Ok (mkProductoBase "Snail 92" "Mask" 28.5 75 None).
Proof.
  apply (persisted_rows_validated
           [ReqCrear (mkProductoBase " Snail 92" "mask" 28.504 75 None);
            ReqEliminar 3] 1).
  vm_compute. reflexivity.
Defined.

(** ** What the requests answer *)




